(** * Human-in-the-loop tool wrapper (react_agent/human_in_the_loop.py)

    A shallow embedding of [add_human_in_the_loop] and of its closure
    [call_tool_with_interrupt], followed by the properties of the branch table
    the closure implements. *)

From stdpp Require Import gmap strings list fin_maps pretty.

Local Open Scope string_scope.
Local Set Warnings "-register-all".

(** ** Python values

    The JSON-like objects exchanged with the host: the interrupt payload, the
    response list, the tool input.  Dictionaries have string keys.  Floats and
    other Python objects are outside the model. *)
Inductive value : Type :=
| VNone
| VBool (b : bool)
| VInt (z : Z)
| VStr (s : string)
| VList (l : list value)
| VDict (d : gmap string value).

(** Exceptions the closure can raise by itself: the three [ValueError]s it
    raises by hand, and the errors of the operators it applies to a value of
    the wrong shape. *)
Inductive exn : Type :=
| ValueError (msg : string)
| TypeError
| KeyError
| AttributeError
| IndexError.

(** Truth value of an object, as [not x] and [x and y] test it. *)
Definition truthy (v : value) : bool :=
  match v with
  | VNone => false
  | VBool b => b
  | VInt z => negb (z =? 0)%Z
  | VStr s => negb (String.eqb s "")
  | VList l => match l with [] => false | _ => true end
  | VDict d => negb (size d =? 0)%nat
  end.

(** [v == s] for a string literal [s]: only a string equals a string. *)
Definition eq_str (v : value) (s : string) : bool :=
  match v with
  | VStr s' => String.eqb s' s
  | _ => false
  end.

(** [str(v)], as an f-string formats [v].  The text of a list or a dict (which
    depends on insertion order and on the quoting of [repr]) is left to
    [repr_container]. *)
Definition py_str (repr_container : value → string) (v : value) : string :=
  match v with
  | VNone => "None"
  | VBool true => "True"
  | VBool false => "False"
  | VInt z => pretty z
  | VStr s => s
  | VList _ | VDict _ => repr_container v
  end.

(** [sub in s] on strings: [sub] occurs in [s]. *)
Fixpoint str_contains (sub s : string) : bool :=
  String.prefix sub s ||
  match s with
  | EmptyString => false
  | String _ s' => str_contains sub s'
  end.

(** Result of a call: a value, or an exception that propagates. *)
Inductive outcome (A : Type) : Type :=
| Returned (a : A)
| Raised (e : exn).
Arguments Returned {A} a.
Arguments Raised {A} e.

(** [v[0]] *)
Definition getitem0 (v : value) : outcome value :=
  match v with
  | VList (x :: _) => Returned x
  | VList [] => Raised IndexError
  | VStr (String c _) => Returned (VStr (String c EmptyString))
  | VStr EmptyString => Raised IndexError
  | VDict _ => Raised KeyError
  | VNone | VBool _ | VInt _ => Raised TypeError
  end.

(** [v.get(key)]: only a dict has the method; a missing key gives [None]. *)
Definition get (v : value) (key : string) : outcome value :=
  match v with
  | VDict d => Returned (default VNone (d !! key))
  | _ => Raised AttributeError
  end.

(** [key in v] for a string literal [key]. *)
Definition contains (key : string) (v : value) : outcome bool :=
  match v with
  | VDict d => Returned (bool_decide (is_Some (d !! key)))
  | VList l => Returned (existsb (λ x, eq_str x key) l)
  | VStr s => Returned (str_contains key s)
  | VNone | VBool _ | VInt _ => Raised TypeError
  end.

(** [v[key]] for a string literal [key]. *)
Definition getitem (v : value) (key : string) : outcome value :=
  match v with
  | VDict d => match d !! key with
               | Some x => Returned x
               | None => Raised KeyError
               end
  | _ => Raised TypeError
  end.

(** ** Tools

    A [BaseTool] carries a name, a description and an argument schema;
    [coroutine] is the function it was built from, of a type [Impl] the wrapper
    never looks into. *)
Record BaseTool (Schema Impl : Type) : Type := StructuredTool {
  name : string;
  description : string;
  args_schema : Schema;
  coroutine : Impl;
}.
Arguments StructuredTool {Schema Impl} name description args_schema coroutine.
Arguments name {Schema Impl} _.
Arguments description {Schema Impl} _.
Arguments args_schema {Schema Impl} _.
Arguments coroutine {Schema Impl} _.

(** ** The coroutine and its two suspension points

    [call_tool_with_interrupt] is an [async] function.  It hands control to its
    environment at [interrupt(...)] and at [await tool_instance.ainvoke(...)];
    each is a node whose continuation receives the environment's answer. *)
Inductive coro (Config A : Type) : Type :=
| Return (a : A)
| Raise (e : exn)
| Interrupt (payloads : value) (resume : value → coro Config A)
| Ainvoke (input : value) (config : Config) (resume : value → coro Config A).
Arguments Return {Config A} a.
Arguments Raise {Config A} e.
Arguments Interrupt {Config A} payloads resume.
Arguments Ainvoke {Config A} input config resume.

Fixpoint coro_bind {Config A B} (k : A → coro Config B) (c : coro Config A) :
    coro Config B :=
  match c with
  | Return a => k a
  | Raise e => Raise e
  | Interrupt p resume => Interrupt p (λ v, coro_bind k (resume v))
  | Ainvoke i cfg resume => Ainvoke i cfg (λ v, coro_bind k (resume v))
  end.

#[export] Instance coro_ret {Config} : MRet (coro Config) := λ _, Return.
#[export] Instance coro_mbind {Config} : MBind (coro Config) := λ _ _, coro_bind.

(** [interrupt(payloads)] and [await tool_instance.ainvoke(input, config=config)]. *)
Definition interrupt {Config} (payloads : value) : coro Config value :=
  Interrupt payloads Return.
Definition ainvoke {Config} (input : value) (config : Config) : coro Config value :=
  Ainvoke input config Return.

(** A Python operator used inside the coroutine: its exception propagates. *)
Definition lift {Config A} (r : outcome A) : coro Config A :=
  match r with
  | Returned a => Return a
  | Raised e => Raise e
  end.

(** What the environment saw of one run. *)
Inductive event (Config : Type) : Type :=
| Interrupted (payloads : value)
| Invoked (input : value) (config : Config).
Arguments Interrupted {Config} payloads.
Arguments Invoked {Config} input config.

(** One run of a coroutine: [host] answers every interrupt with the response
    list the human produced, [tool] is the original tool's [ainvoke].  The
    result is the list of events in order, and how the coroutine ended. *)
Fixpoint run {Config A} (host : value → value)
    (tool : value → Config → outcome value) (c : coro Config A) :
    list (event Config) * outcome A :=
  match c with
  | Return a => ([], Returned a)
  | Raise e => ([], Raised e)
  | Interrupt p resume =>
      let '(tr, r) := run host tool (resume (host p)) in
      (Interrupted p :: tr, r)
  | Ainvoke i cfg resume =>
      match tool i cfg with
      | Returned v =>
          let '(tr, r) := run host tool (resume v) in
          (Invoked i cfg :: tr, r)
      | Raised e => ([Invoked i cfg], Raised e)
      end
  end.

(** The type of the decorated function: [config] and the keyword arguments
    [**tool_input]. *)
Definition Closure (Config : Type) : Type :=
  Config → gmap string value → coro Config value.

(** The locals [response_type] and [response_args] of the closure, for a
    response record [resp]: [resp.get("type")] and [resp.get("args")]. *)
Definition response_type (resp : gmap string value) : value :=
  default VNone (resp !! "type").
Definition response_args (resp : gmap string value) : value :=
  default VNone (resp !! "args").

(** The payload of an [edit] response carries replacement arguments: it is a
    dict with an ["args"] entry. *)
Definition has_nested_args (v : value) : Prop :=
  ∃ (d : gmap string value) (x : value), v = VDict d ∧ d !! "args" = Some x.

(** The shape [interrupt] documents for its answer: a list, whose first
    element (when there is one) is a response record. *)
Definition is_response_list (v : value) : bool :=
  match v with
  | VList [] => true
  | VList (VDict _ :: _) => true
  | _ => false
  end.

(** ** A running example

    A [search] tool over unit configurations, whose [ainvoke] echoes its input,
    and a host that answers every interrupt with the same response list. *)
Definition search_tool : BaseTool unit unit :=
  StructuredTool "search" "Search the web." () ().

Definition search_input : gmap string value := {[ "query" := VStr "rocq" ]}.

Definition coerce_search (f : unit) : BaseTool unit unit := search_tool.

Definition no_repr (v : value) : string := "".

(** A decorator that keeps the name, the description and the schema it is
    given. *)
Definition keep_name {Schema : Type} (n d : string) (s : Schema) : string := n.
Definition keep_description {Schema : Type} (n d : string) (s : Schema) : string := d.
Definition keep_schema {Schema : Type} (n d : string) (s : Schema) : Schema := s.



Definition echo (input : value) (config : unit) : outcome value := Returned input.

Definition answer (responses : list value) (payloads : value) : value :=
  VList responses.

Section HumanInTheLoop.
Context {RunnableConfig Schema Impl Callable : Type}.

(** [create_tool(f)]: langchain's coercion of a plain callable into a tool. *)
Variable create_tool : Callable → BaseTool Schema Impl.

(** [create_tool(name, description=..., args_schema=...)]: langchain's
    decorator, used with arguments.  The library is not part of the
    repository, so the name, the description and the schema it gives the tool
    it builds are parameters, each a function of the three values it is
    passed. *)
Variable decorated_name : string → string → Schema → string.
Variable decorated_description : string → string → Schema → string.
Variable decorated_schema : string → string → Schema → Schema.

(** The text [str] gives a list or a dict, see [py_str]. *)
Variable repr_container : value → string.

(** The environment of a run: the answer to the interrupt, and the original
    tool's [ainvoke]. *)
Variable host : value → value.
Variable tool : value → RunnableConfig → outcome value.

(** The permissions used when the caller supplies none. *)
Definition default_config : gmap string bool :=
  {[ "allow_accept" := true;
     "allow_edit" := true;
     "allow_respond" := true;
     "allow_ignore" := true ]}.

(** The request record, in the layout the Agent Inbox UI expects. *)
Definition interrupt_payload (tool_instance : BaseTool Schema Impl)
    (final_interrupt_config : gmap string bool)
    (tool_input : gmap string value) : value :=
  VDict {[
    "action_request" := VDict {[
        "action" := VStr (name tool_instance);
        "args" := VDict tool_input ]};
    "config" := VDict (VBool <$> final_interrupt_config);
    "description" :=
      VStr ("Please review the tool call to '" +:+ name tool_instance +:+ "'.") ]}.

(** The closure.  [interrupt] receives a one-element list and answers with the
    response list; both [get]s are done before the branch on the type tag; the
    test [response_args and "args" in response_args] looks for the key only in
    a payload that is true. *)
Definition call_tool_with_interrupt (tool_instance : BaseTool Schema Impl)
    (final_interrupt_config : gmap string bool) : Closure RunnableConfig :=
  λ config tool_input,
  response_list ←
    interrupt (VList [interrupt_payload tool_instance final_interrupt_config tool_input]);
  if negb (truthy response_list) then
    Raise (ValueError "Interrupt did not return a response.")
  else
  response_from_human ← lift (getitem0 response_list);
  response_type ← lift (get response_from_human "type");
  response_args ← lift (get response_from_human "args");
  if eq_str response_type "accept" then
    ainvoke (VDict tool_input) config
  else if eq_str response_type "edit" then
    has_args ← (if truthy response_args
                then lift (contains "args" response_args)
                else mret false);
    if has_args : bool then
      edited_tool_input ← lift (getitem response_args "args");
      ainvoke edited_tool_input config
    else
      Raise (ValueError
        "Edit response type received, but valid 'args' were not found in the response.")
  else if eq_str response_type "response" then
    mret response_args
  else if eq_str response_type "ignore" then
    mret (VStr ("Tool call '" +:+ name tool_instance +:+ "' was ignored by the user."))
  else
    Raise (ValueError
      ("Unsupported interrupt response type received: '"
         +:+ py_str repr_container response_type +:+ "'")).

(** [tool_to_wrap] is a plain callable ([inl]) or already a tool ([inr]):
    the local [tool_instance] of [add_human_in_the_loop]. *)
Definition tool_instance (tool_to_wrap : Callable + BaseTool Schema Impl) :
    BaseTool Schema Impl :=
  match tool_to_wrap with
  | inl f => create_tool f
  | inr t => t
  end.

(** The local [final_interrupt_config]: the caller's mapping unless it is
    [None]. *)
Definition final_interrupt_config (interrupt_config : option (gmap string bool)) :
    gmap string bool :=
  match interrupt_config with
  | Some c => c
  | None => default_config
  end.

(** Lines 55-59 hand the name, the description and the schema of
    [tool_instance] to the decorator and decorate the closure: the new tool
    has the three fields the decorator makes of them, and runs the closure. *)
Definition add_human_in_the_loop (tool_to_wrap : Callable + BaseTool Schema Impl)
    (interrupt_config : option (gmap string bool)) :
    BaseTool Schema (Closure RunnableConfig) :=
  StructuredTool
    (decorated_name
       (name (tool_instance tool_to_wrap))
       (description (tool_instance tool_to_wrap))
       (args_schema (tool_instance tool_to_wrap)))
    (decorated_description
       (name (tool_instance tool_to_wrap))
       (description (tool_instance tool_to_wrap))
       (args_schema (tool_instance tool_to_wrap)))
    (decorated_schema
       (name (tool_instance tool_to_wrap))
       (description (tool_instance tool_to_wrap))
       (args_schema (tool_instance tool_to_wrap)))
    (call_tool_with_interrupt (tool_instance tool_to_wrap)
       (final_interrupt_config interrupt_config)).

(** What a closure sends to [interrupt], and one run of it. *)
Definition sent (t : BaseTool Schema Impl) (permissions : gmap string bool)
    (tool_input : gmap string value) : value :=
  VList [interrupt_payload t permissions tool_input].

Definition run_closure (t : BaseTool Schema Impl) (permissions : gmap string bool)
    (config : RunnableConfig) (tool_input : gmap string value) :
    list (event RunnableConfig) * outcome value :=
  run host tool (call_tool_with_interrupt t permissions config tool_input).

(** The same for the tool [add_human_in_the_loop] returns. *)
Definition request (tool_to_wrap : Callable + BaseTool Schema Impl)
    (interrupt_config : option (gmap string bool))
    (tool_input : gmap string value) : value :=
  sent (tool_instance tool_to_wrap) (final_interrupt_config interrupt_config) tool_input.

Definition invoke_wrapped (tool_to_wrap : Callable + BaseTool Schema Impl)
    (interrupt_config : option (gmap string bool))
    (config : RunnableConfig) (tool_input : gmap string value) :
    list (event RunnableConfig) * outcome value :=
  run host tool
    (coroutine (add_human_in_the_loop tool_to_wrap interrupt_config) config tool_input).

Implicit Types (t : BaseTool Schema Impl) (permissions : gmap string bool).
Implicit Types (tool_to_wrap : Callable + BaseTool Schema Impl).
Implicit Types (interrupt_config : option (gmap string bool)).
Implicit Types (config : RunnableConfig) (tool_input resp : gmap string value).
Implicit Types (rest : list value).

(** ** Strings and tags *)

Lemma eq_str_true (v : value) (s : string) : eq_str v s = true ↔ v = VStr s.
Proof.
  destruct v; cbn; try (split; [discriminate | congruence]).
  rewrite String.eqb_eq. split; congruence.
Qed.

Lemma eq_str_false (v : value) (s : string) : v ≠ VStr s → eq_str v s = false.
Proof.
  intros Hne. destruct (eq_str v s) eqn:E; [|done].
  by apply eq_str_true in E.
Qed.

Lemma prefix_app (s u : string) : String.prefix s (s +:+ u) = true.
Proof.
  induction s as [|c s IH]; [by destruct u|].
  change (String c s +:+ u) with (String c (s +:+ u)). cbn [String.prefix].
  by destruct (Ascii.ascii_dec c c).
Qed.

Lemma str_contains_prefix (sub s : string) :
  String.prefix sub s = true → str_contains sub s = true.
Proof. intros H. destruct s; cbn [str_contains]; by rewrite H. Qed.

Lemma str_contains_app (sub before after : string) :
  str_contains sub (before +:+ sub +:+ after) = true.
Proof.
  induction before as [|c before IH].
  - change ("" +:+ sub +:+ after) with (sub +:+ after).
    apply str_contains_prefix, prefix_app.
  - change (String c before +:+ sub +:+ after)
      with (String c (before +:+ sub +:+ after)).
    cbn [str_contains]. rewrite IH. apply orb_true_r.
Qed.

(** ** The closure, branch by branch *)

(** Unfolds the closure and runs it up to the next test on the response. *)
Ltac coro_step :=
  cbn [call_tool_with_interrupt
       mbind mret coro_mbind coro_ret coro_bind interrupt ainvoke lift run
       truthy negb getitem0 get getitem contains from_option id].

Ltac eq_str_closed :=
  repeat match goal with
  | |- context [eq_str (VStr ?s) ?k] =>
      let b := eval vm_compute in (eq_str (VStr s) k) in
      change (eq_str (VStr s) k) with b
  end.

(** Runs the closure on the answer [Hhost] gives for the interrupt. *)
Ltac on_answer Hhost :=
  unfold run_closure, sent, response_type, response_args in *;
  coro_step; rewrite Hhost; coro_step.

Lemma run_empty t permissions config tool_input :
  host (sent t permissions tool_input) = VList [] →
  run_closure t permissions config tool_input =
    ([Interrupted (sent t permissions tool_input)],
     Raised (ValueError "Interrupt did not return a response.")).
Proof. intros Hhost. by on_answer Hhost. Qed.

Lemma run_accept t permissions config tool_input resp rest :
  host (sent t permissions tool_input) = VList (VDict resp :: rest) →
  response_type resp = VStr "accept" →
  run_closure t permissions config tool_input =
    ([Interrupted (sent t permissions tool_input); Invoked (VDict tool_input) config],
     tool (VDict tool_input) config).
Proof.
  intros Hhost Htype. on_answer Hhost.
  rewrite Htype. eq_str_closed. coro_step. by destruct (tool _ _).
Qed.

Lemma run_edit t permissions config tool_input resp rest d edited :
  host (sent t permissions tool_input) = VList (VDict resp :: rest) →
  response_type resp = VStr "edit" →
  response_args resp = VDict d →
  d !! "args" = Some edited →
  run_closure t permissions config tool_input =
    ([Interrupted (sent t permissions tool_input); Invoked edited config],
     tool edited config).
Proof.
  intros Hhost Htype Hargs Hnested. on_answer Hhost.
  rewrite Htype, Hargs. eq_str_closed. coro_step.
  assert (size d ≠ 0) as Hsize.
  { intros ->%map_size_empty_inv. by rewrite lookup_empty in Hnested. }
  destruct (size d =? 0)%nat eqn:E; [by apply Nat.eqb_eq in E|].
  coro_step. rewrite Hnested. rewrite bool_decide_eq_true_2 by eauto.
  coro_step. by destruct (tool _ _).
Qed.

Lemma run_edit_without_args t permissions config tool_input resp rest :
  host (sent t permissions tool_input) = VList (VDict resp :: rest) →
  response_type resp = VStr "edit" →
  ¬ has_nested_args (response_args resp) →
  run_closure t permissions config tool_input =
    ([Interrupted (sent t permissions tool_input)],
     Raised (ValueError
       "Edit response type received, but valid 'args' were not found in the response."))
  ∨ run_closure t permissions config tool_input =
    ([Interrupted (sent t permissions tool_input)], Raised TypeError).
Proof.
  intros Hhost Htype Hnone. on_answer Hhost.
  rewrite Htype. eq_str_closed.
  destruct (default VNone (resp !! "args")) as [|[]|z|s|[|x l]|d] eqn:Hargs;
    coro_step; auto.
  - destruct (z =? 0)%Z; coro_step; auto.
  - destruct (String.eqb s ""); coro_step; auto.
    destruct (str_contains "args" s); coro_step; auto.
  - destruct (existsb _ _); coro_step; auto.
  - destruct (size d =? 0)%nat; coro_step; auto.
    case_bool_decide as Hin; coro_step; auto.
    destruct Hin as [edited Hin]. destruct Hnone. by exists d, edited.
Qed.

Lemma run_response t permissions config tool_input resp rest :
  host (sent t permissions tool_input) = VList (VDict resp :: rest) →
  response_type resp = VStr "response" →
  run_closure t permissions config tool_input =
    ([Interrupted (sent t permissions tool_input)], Returned (response_args resp)).
Proof.
  intros Hhost Htype. on_answer Hhost. rewrite Htype. by eq_str_closed.
Qed.

Lemma run_ignore t permissions config tool_input resp rest :
  host (sent t permissions tool_input) = VList (VDict resp :: rest) →
  response_type resp = VStr "ignore" →
  run_closure t permissions config tool_input =
    ([Interrupted (sent t permissions tool_input)],
     Returned (VStr ("Tool call '" +:+ name t +:+ "' was ignored by the user."))).
Proof.
  intros Hhost Htype. on_answer Hhost. rewrite Htype. by eq_str_closed.
Qed.

Lemma run_unsupported t permissions config tool_input resp rest :
  host (sent t permissions tool_input) = VList (VDict resp :: rest) →
  response_type resp ∉ [VStr "accept"; VStr "edit"; VStr "response"; VStr "ignore"] →
  run_closure t permissions config tool_input =
    ([Interrupted (sent t permissions tool_input)],
     Raised (ValueError
       ("Unsupported interrupt response type received: '"
          +:+ py_str repr_container (response_type resp) +:+ "'"))).
Proof.
  intros Hhost Htype. on_answer Hhost.
  rewrite !eq_str_false; [done|..]; intros E; apply Htype; rewrite E; set_solver.
Qed.

(** Whatever the host answers, a run interrupts once, first, and invokes the
    original tool at most once, with the [config] it was given. *)
Lemma run_events t permissions config tool_input :
  ∃ tr r,
    run_closure t permissions config tool_input =
      (Interrupted (sent t permissions tool_input) :: tr, r)
    ∧ (tr = [] ∨ ∃ input, tr = [Invoked input config]).
Proof.
  unfold run_closure, sent. coro_step.
  repeat (coro_step;
          match goal with
          | |- context [tool ?i ?c] => destruct (tool i c)
          | |- context [truthy ?v] => destruct v
          | |- context [getitem0 ?v] => destruct v
          | |- context [get ?v _] => destruct v
          | |- context [contains _ ?v] => destruct v
          | |- context [getitem ?v _] => destruct v
          | |- context [match ?x with _ => _ end] =>
              lazymatch x with
              | run _ _ _ => fail
              | _ => destruct x
              end
          end);
    coro_step; eauto 10.
Qed.

(** ** The wrapped tool *)

(** Invoking the tool [add_human_in_the_loop] returns runs the closure built
    for [tool_instance] and [final_interrupt_config]. *)
Lemma invoke_wrapped_closure tool_to_wrap interrupt_config config tool_input :
  invoke_wrapped tool_to_wrap interrupt_config config tool_input =
    run_closure (tool_instance tool_to_wrap) (final_interrupt_config interrupt_config)
      config tool_input.
Proof. reflexivity. Qed.

Lemma response_type_lookup resp (v : value) :
  resp !! "type" = Some v → response_type resp = v.
Proof. unfold response_type. by intros ->. Qed.

Lemma response_args_lookup resp (v : value) :
  resp !! "args" = Some v → response_args resp = v.
Proof. unfold response_args. by intros ->. Qed.

(** C1: when the first response record has type ["accept"], the wrapped tool
    interrupts once, then invokes the original tool with exactly the caller's
    arguments and [config], and ends as that invocation ends. *)
Theorem accept_invokes_original_tool
    tool_to_wrap interrupt_config config tool_input resp rest :
  host (request tool_to_wrap interrupt_config tool_input) = VList (VDict resp :: rest) →
  resp !! "type" = Some (VStr "accept") →
  invoke_wrapped tool_to_wrap interrupt_config config tool_input =
    ([Interrupted (request tool_to_wrap interrupt_config tool_input);
      Invoked (VDict tool_input) config],
     tool (VDict tool_input) config).
Proof.
  intros Hhost Htype. rewrite invoke_wrapped_closure.
  eapply run_accept; [exact Hhost|]. by apply response_type_lookup.
Qed.

(** C2: when the first response record has type ["edit"] and its ["args"]
    payload is a dict with a nested ["args"] entry, the wrapped tool invokes
    the original tool with that entry, whatever the caller's arguments were,
    and ends as that invocation ends. *)
Theorem edit_invokes_with_replacement
    tool_to_wrap interrupt_config config tool_input resp rest
    (payload : gmap string value) (edited : value) :
  host (request tool_to_wrap interrupt_config tool_input) = VList (VDict resp :: rest) →
  resp !! "type" = Some (VStr "edit") →
  resp !! "args" = Some (VDict payload) →
  payload !! "args" = Some edited →
  invoke_wrapped tool_to_wrap interrupt_config config tool_input =
    ([Interrupted (request tool_to_wrap interrupt_config tool_input);
      Invoked edited config],
     tool edited config).
Proof.
  intros Hhost Htype Hargs Hnested. rewrite invoke_wrapped_closure.
  eapply run_edit; [exact Hhost| |by apply response_args_lookup|exact Hnested].
  by apply response_type_lookup.
Qed.

(** C3: when the first response record has type ["response"], the wrapped
    tool returns the record's ["args"] payload unchanged, and the only event of
    the run is the interrupt: the original tool is not invoked. *)
Theorem response_returns_payload
    tool_to_wrap interrupt_config config tool_input resp rest (payload : value) :
  host (request tool_to_wrap interrupt_config tool_input) = VList (VDict resp :: rest) →
  resp !! "type" = Some (VStr "response") →
  resp !! "args" = Some payload →
  invoke_wrapped tool_to_wrap interrupt_config config tool_input =
    ([Interrupted (request tool_to_wrap interrupt_config tool_input)], Returned payload).
Proof.
  intros Hhost Htype Hargs. rewrite invoke_wrapped_closure.
  rewrite <- (response_args_lookup resp payload Hargs).
  eapply run_response; [exact Hhost|]. by apply response_type_lookup.
Qed.

(** C4: when the first response record has type ["ignore"], the wrapped tool
    returns a notice that depends on the tool's name only, and the only event
    of the run is the interrupt: the original tool is not invoked. *)
Theorem ignore_returns_fixed_notice
    tool_to_wrap interrupt_config config tool_input resp rest :
  host (request tool_to_wrap interrupt_config tool_input) = VList (VDict resp :: rest) →
  resp !! "type" = Some (VStr "ignore") →
  invoke_wrapped tool_to_wrap interrupt_config config tool_input =
    ([Interrupted (request tool_to_wrap interrupt_config tool_input)],
     Returned (VStr ("Tool call '" +:+ name (tool_instance tool_to_wrap)
                       +:+ "' was ignored by the user."))).
Proof.
  intros Hhost Htype. rewrite invoke_wrapped_closure.
  eapply run_ignore; [exact Hhost|]. by apply response_type_lookup.
Qed.

(** C10: a ["response"] record with no ["args"] key raises nothing: the
    wrapped tool returns [None]. *)
Theorem response_without_args_returns_none
    tool_to_wrap interrupt_config config tool_input resp rest :
  host (request tool_to_wrap interrupt_config tool_input) = VList (VDict resp :: rest) →
  resp !! "type" = Some (VStr "response") →
  resp !! "args" = None →
  invoke_wrapped tool_to_wrap interrupt_config config tool_input =
    ([Interrupted (request tool_to_wrap interrupt_config tool_input)], Returned VNone).
Proof.
  intros Hhost Htype Hargs. rewrite invoke_wrapped_closure.
  erewrite run_response; [|exact Hhost|by apply response_type_lookup].
  unfold response_args. by rewrite Hargs.
Qed.

Lemma has_nested_args_dec (v : value) : has_nested_args v ∨ ¬ has_nested_args v.
Proof.
  destruct v as [| | | | |d]; try (right; intros (d' & x & [=] & _); done).
  destruct (d !! "args") as [x|] eqn:E.
  - left. by exists d, x.
  - right. intros (d' & x & [= <-] & E'). congruence.
Qed.

Lemma eq_str_false_inv (v : value) (s : string) : eq_str v s = false → v ≠ VStr s.
Proof. intros E Heq. apply eq_str_true in Heq. congruence. Qed.

(** C5, amended: on an answer of the documented shape, the wrapped tool
    raises before any invocation of the original tool, the interrupt being the
    only event of the run, in exactly three cases: the response list is empty,
    an ["edit"] record carries no nested ["args"], or the record's type is none
    of the four known tags. *)
Theorem fatal_errors_exactly_three tool_to_wrap interrupt_config config tool_input :
  is_response_list (host (request tool_to_wrap interrupt_config tool_input)) = true →
  (∃ e, invoke_wrapped tool_to_wrap interrupt_config config tool_input =
          ([Interrupted (request tool_to_wrap interrupt_config tool_input)], Raised e))
  ↔ (host (request tool_to_wrap interrupt_config tool_input) = VList []
     ∨ (∃ resp rest,
          host (request tool_to_wrap interrupt_config tool_input) = VList (VDict resp :: rest)
          ∧ response_type resp = VStr "edit"
          ∧ ¬ has_nested_args (response_args resp))
     ∨ (∃ resp rest,
          host (request tool_to_wrap interrupt_config tool_input) = VList (VDict resp :: rest)
          ∧ response_type resp
              ∉ [VStr "accept"; VStr "edit"; VStr "response"; VStr "ignore"])).
Proof.
  intros Hshape. rewrite invoke_wrapped_closure. unfold request in *.
  set (t := tool_instance tool_to_wrap) in *.
  set (permissions := final_interrupt_config interrupt_config) in *.
  split.
  - intros [e He].
    destruct (host _) as [| | | |[|[| | | | |resp] rest]|] eqn:Hhost; try done.
    { by left. }
    right.
    destruct (eq_str (response_type resp) "accept") eqn:Eaccept.
    { apply eq_str_true in Eaccept.
      rewrite (run_accept _ _ _ _ _ _ Hhost Eaccept) in He. done. }
    destruct (eq_str (response_type resp) "edit") eqn:Eedit.
    { apply eq_str_true in Eedit. left. exists resp, rest.
      split_and!; [done..|]. intros (d & edited & Hargs & Hnested).
      rewrite (run_edit _ _ _ _ _ _ _ _ Hhost Eedit Hargs Hnested) in He. done. }
    destruct (eq_str (response_type resp) "response") eqn:Eresponse.
    { apply eq_str_true in Eresponse.
      rewrite (run_response _ _ _ _ _ _ Hhost Eresponse) in He. done. }
    destruct (eq_str (response_type resp) "ignore") eqn:Eignore.
    { apply eq_str_true in Eignore.
      rewrite (run_ignore _ _ _ _ _ _ Hhost Eignore) in He. done. }
    right. exists resp, rest. split; [done|].
    apply eq_str_false_inv in Eaccept, Eedit, Eresponse, Eignore.
    rewrite !not_elem_of_cons. split_and!; [done..|]. apply not_elem_of_nil.
  - intros [Hhost|[(resp & rest & Hhost & Htype & Hnone)|(resp & rest & Hhost & Htype)]].
    + eexists. by apply run_empty.
    + destruct (run_edit_without_args _ _ config _ _ _ Hhost Htype Hnone); eauto.
    + eexists. by eapply run_unsupported.
Qed.

(** C6: when the record's type is none of the four known tags, the wrapped
    tool raises a [ValueError] whose message is the fixed text followed by the
    tag between quotes, so the tag (as [str] prints it; a string tag as it is)
    occurs in the message. *)
Theorem unsupported_type_named_in_error
    tool_to_wrap interrupt_config config tool_input resp rest :
  host (request tool_to_wrap interrupt_config tool_input) = VList (VDict resp :: rest) →
  response_type resp ∉ [VStr "accept"; VStr "edit"; VStr "response"; VStr "ignore"] →
  ∃ msg,
    invoke_wrapped tool_to_wrap interrupt_config config tool_input =
      ([Interrupted (request tool_to_wrap interrupt_config tool_input)],
       Raised (ValueError msg))
    ∧ msg = "Unsupported interrupt response type received: '"
              +:+ py_str repr_container (response_type resp) +:+ "'"
    ∧ str_contains (py_str repr_container (response_type resp)) msg = true
    ∧ ∀ tag : string, response_type resp = VStr tag → str_contains tag msg = true.
Proof.
  intros Hhost Htype. eexists. split_and!.
  - rewrite invoke_wrapped_closure. by eapply run_unsupported.
  - reflexivity.
  - apply str_contains_app.
  - intros tag ->. apply str_contains_app.
Qed.


(** C8: every run of the wrapped tool starts by handing [interrupt] one
    request and interrupts no more.  The request has exactly the fields
    [action_request], [config] and [description]; [action_request] holds the
    tool's name under [action] and the caller's arguments under [args]; and
    with no [interrupt_config], [config] maps the four permissions to [True]. *)
Theorem request_record_fields tool_to_wrap interrupt_config config tool_input :
  ∃ (record : gmap string value) tr r,
    invoke_wrapped tool_to_wrap interrupt_config config tool_input =
      (Interrupted (VList [VDict record]) :: tr, r)
    ∧ (tr = [] ∨ ∃ input, tr = [Invoked input config])
    ∧ dom record = {[ "action_request"; "config"; "description" ]}
    ∧ record !! "action_request" =
        Some (VDict {[ "action" := VStr (name (tool_instance tool_to_wrap));
                       "args" := VDict tool_input ]})
    ∧ record !! "config" =
        Some (VDict (VBool <$> final_interrupt_config interrupt_config))
    ∧ record !! "description" =
        Some (VStr ("Please review the tool call to '"
                      +:+ name (tool_instance tool_to_wrap) +:+ "'."))
    ∧ (interrupt_config = None →
       record !! "config" =
         Some (VDict {[ "allow_accept" := VBool true;
                        "allow_edit" := VBool true;
                        "allow_respond" := VBool true;
                        "allow_ignore" := VBool true ]})).
Proof.
  destruct (run_events (tool_instance tool_to_wrap)
              (final_interrupt_config interrupt_config) config tool_input)
    as (tr & r & Hrun & Hevents).
  rewrite invoke_wrapped_closure, Hrun. unfold sent, interrupt_payload.
  eexists _, tr, r. split_and!; [reflexivity|exact Hevents|..].
  - rewrite !dom_insert_L, dom_singleton_L. set_solver.
  - by rewrite lookup_insert_eq.
  - by simplify_map_eq.
  - by simplify_map_eq.
  - intros ->. rewrite lookup_insert_ne, lookup_insert_eq by done.
    unfold final_interrupt_config, default_config.
    by rewrite !fmap_insert, map_fmap_singleton.
Qed.

(** C9: a supplied [interrupt_config], empty or not, is the request's
    [config] as it stands: each key reads as in the supplied mapping, so a
    permission it lacks is absent from the request, not defaulted. *)
Theorem supplied_config_replaces_default
    tool_to_wrap (supplied : gmap string bool) config tool_input :
  ∃ (record permissions : gmap string value) tr r,
    invoke_wrapped tool_to_wrap (Some supplied) config tool_input =
      (Interrupted (VList [VDict record]) :: tr, r)
    ∧ record !! "config" = Some (VDict permissions)
    ∧ (∀ key, permissions !! key = VBool <$> supplied !! key)
    ∧ (∀ key, supplied !! key = None → permissions !! key = None)
    ∧ (supplied = ∅ → permissions = ∅).
Proof.
  destruct (run_events (tool_instance tool_to_wrap)
              (final_interrupt_config (Some supplied)) config tool_input)
    as (tr & r & Hrun & _).
  rewrite invoke_wrapped_closure, Hrun. unfold sent, interrupt_payload.
  eexists _, (VBool <$> supplied), tr, r. split_and!; [reflexivity|..].
  - by simplify_map_eq.
  - intros key. apply lookup_fmap.
  - intros key Hkey. by rewrite lookup_fmap, Hkey.
  - intros ->. apply fmap_empty.
Qed.

(** ** Answers outside the branch table *)

Lemma existsb_eq_str (key : string) (l : list value) :
  existsb (λ x, eq_str x key) l = true ↔ VStr key ∈ l.
Proof.
  rewrite existsb_exists. setoid_rewrite <- list_elem_of_In. split.
  - intros (x & Hin & Heq). apply eq_str_true in Heq. by subst x.
  - intros Hin. exists (VStr key). split; [done|]. by apply eq_str_true.
Qed.

Lemma str_contains_nonempty (sub s : string) :
  sub ≠ "" → str_contains sub s = true → String.eqb s "" = false.
Proof.
  intros Hsub Hin. destruct s as [|c s]; [|done].
  destruct sub; [done|]. cbn in Hin. discriminate Hin.
Qed.

Lemma not_invoked_alone (payloads input : value) config :
  Invoked input config ∉ [Interrupted (Config := RunnableConfig) payloads].
Proof. intros Hin. apply list_elem_of_singleton in Hin. discriminate Hin. Qed.

(** X1: lines 80-82 test the answer's truth value, not its length: any false
    answer ([None], [0], an empty string, list or dict) is the missing
    response. *)
Theorem falsy_answer_is_no_response tool_to_wrap interrupt_config config tool_input :
  truthy (host (request tool_to_wrap interrupt_config tool_input)) = false →
  invoke_wrapped tool_to_wrap interrupt_config config tool_input =
    ([Interrupted (request tool_to_wrap interrupt_config tool_input)],
     Raised (ValueError "Interrupt did not return a response.")).
Proof.
  intros Hfalsy. rewrite invoke_wrapped_closure.
  unfold request, run_closure, sent in *. coro_step. by rewrite Hfalsy.
Qed.

(** X3: lines 84-89: a list answer whose first element is not a dict has no
    [get]; the run ends in [AttributeError] with the interrupt as its only
    event. *)
Theorem first_response_not_a_record
    tool_to_wrap interrupt_config config tool_input (first : value) rest :
  host (request tool_to_wrap interrupt_config tool_input) = VList (first :: rest) →
  (∀ resp, first ≠ VDict resp) →
  invoke_wrapped tool_to_wrap interrupt_config config tool_input =
    ([Interrupted (request tool_to_wrap interrupt_config tool_input)],
     Raised AttributeError).
Proof.
  intros Hhost Hfirst. rewrite invoke_wrapped_closure. unfold request in *.
  on_answer Hhost. destruct first as [| | | | |resp]; coro_step; try done.
  by destruct (Hfirst resp).
Qed.

(** X4: lines 84-89: a true answer that is not a list fails at [[0]] or at [get]:
    a string gives [AttributeError], a dict [KeyError], a number or [True]
    [TypeError]; the original tool is not invoked. *)
Theorem answer_not_a_list tool_to_wrap interrupt_config config tool_input :
  truthy (host (request tool_to_wrap interrupt_config tool_input)) = true →
  (∀ l, host (request tool_to_wrap interrupt_config tool_input) ≠ VList l) →
  invoke_wrapped tool_to_wrap interrupt_config config tool_input =
    ([Interrupted (request tool_to_wrap interrupt_config tool_input)],
     Raised match host (request tool_to_wrap interrupt_config tool_input) with
            | VStr _ => AttributeError
            | VDict _ => KeyError
            | _ => TypeError
            end).
Proof.
  intros Htrue Hshape. rewrite invoke_wrapped_closure.
  unfold request, run_closure, sent in *. coro_step. rewrite Htrue. coro_step.
  destruct (host _) as [| | |[|c s]|l|d]; coro_step; try done.
  by destruct (Hshape l).
Qed.

(** X5: lines 94-103: an ["edit"] record whose payload is false (absent, [None],
    empty) or is a dict without the key ["args"] raises the [ValueError] of
    line 101. *)
Theorem edit_without_args_value_error
    tool_to_wrap interrupt_config config tool_input resp rest :
  host (request tool_to_wrap interrupt_config tool_input) = VList (VDict resp :: rest) →
  response_type resp = VStr "edit" →
  truthy (response_args resp) = false
    ∨ (∃ d : gmap string value, response_args resp = VDict d ∧ d !! "args" = None) →
  invoke_wrapped tool_to_wrap interrupt_config config tool_input =
    ([Interrupted (request tool_to_wrap interrupt_config tool_input)],
     Raised (ValueError
       "Edit response type received, but valid 'args' were not found in the response.")).
Proof.
  intros Hhost Htype Hargs. rewrite invoke_wrapped_closure. unfold request in *.
  on_answer Hhost. rewrite Htype. eq_str_closed.
  destruct Hargs as [Hfalsy|(d & Hd & Hnone)].
  - by rewrite Hfalsy.
  - rewrite Hd. coro_step. rewrite Hnone.
    rewrite bool_decide_eq_false_2 by (by intros [x Hx]).
    by destruct (size d =? 0)%nat.
Qed.

(** X6: lines 97-99: the test ["args" in response_args] is also true of a string
    in which [args] occurs and of a list with the element ["args"], and it
    raises on a number or on [True]; then line 97 or 98 raises [TypeError], not
    the [ValueError] of line 101. *)
Theorem edit_payload_not_a_dict_type_error
    tool_to_wrap interrupt_config config tool_input resp rest :
  host (request tool_to_wrap interrupt_config tool_input) = VList (VDict resp :: rest) →
  response_type resp = VStr "edit" →
  (∃ s, response_args resp = VStr s ∧ str_contains "args" s = true)
    ∨ (∃ l, response_args resp = VList l ∧ VStr "args" ∈ l)
    ∨ (∃ z, response_args resp = VInt z ∧ z ≠ 0%Z)
    ∨ response_args resp = VBool true →
  invoke_wrapped tool_to_wrap interrupt_config config tool_input =
    ([Interrupted (request tool_to_wrap interrupt_config tool_input)], Raised TypeError).
Proof.
  intros Hhost Htype Hargs. rewrite invoke_wrapped_closure. unfold request in *.
  on_answer Hhost. rewrite Htype. eq_str_closed.
  destruct Hargs as [(s & -> & Hin)|[(l & -> & Hin)|[(z & -> & Hz)| ->]]]; coro_step.
  - rewrite (str_contains_nonempty "args" s) by done. coro_step. by rewrite Hin.
  - apply existsb_eq_str in Hin as Hexists.
    destruct l; [by apply elem_of_nil in Hin|]. coro_step. by rewrite Hexists.
  - apply Z.eqb_neq in Hz. by rewrite Hz.
  - done.
Qed.

(** X7: lines 88 and 111-114: a record with no ["type"] key reads as the tag
    [None], which no branch knows; the message quotes it as [None]. *)
Theorem missing_type_reported_as_none
    tool_to_wrap interrupt_config config tool_input resp rest :
  host (request tool_to_wrap interrupt_config tool_input) = VList (VDict resp :: rest) →
  resp !! "type" = None →
  invoke_wrapped tool_to_wrap interrupt_config config tool_input =
    ([Interrupted (request tool_to_wrap interrupt_config tool_input)],
     Raised (ValueError "Unsupported interrupt response type received: 'None'")).
Proof.
  intros Hhost Htype. rewrite invoke_wrapped_closure.
  erewrite run_unsupported; [|exact Hhost|].
  - unfold response_type. by rewrite Htype.
  - unfold response_type. rewrite Htype. cbn [default from_option].
    rewrite !not_elem_of_cons. split_and!; [done..|]. apply not_elem_of_nil.
Qed.

(** Whatever the host answers outside the documented shape, the run ends in an
    exception with the interrupt as its only event. *)
Lemma run_ill_shaped t permissions config tool_input :
  is_response_list (host (sent t permissions tool_input)) = false →
  ∃ e, run_closure t permissions config tool_input =
         ([Interrupted (sent t permissions tool_input)], Raised e).
Proof.
  intros Hshape. unfold run_closure, sent in *. coro_step.
  destruct (host _) as [|[]|z|[|c s]|[|[] l]|d]; try done; coro_step; eauto.
  - destruct (z =? 0)%Z; coro_step; eauto.
  - destruct (size d =? 0)%nat; coro_step; eauto.
Qed.

(** X8: lines 91-114: the original tool runs only after the human accepted the
    call or edited it.  If a run invokes the tool at all, the first response
    is an ["accept"] record and the input is the caller's, or it is an
    ["edit"] record and the input is the nested ["args"] of its payload; the
    [config] is the caller's in both cases. *)
Theorem tool_invoked_only_on_accept_or_edit
    tool_to_wrap interrupt_config config tool_input (input : value) config' :
  Invoked input config'
    ∈ (invoke_wrapped tool_to_wrap interrupt_config config tool_input).1 →
  config' = config
  ∧ ∃ resp rest,
      host (request tool_to_wrap interrupt_config tool_input) = VList (VDict resp :: rest)
      ∧ ((response_type resp = VStr "accept" ∧ input = VDict tool_input)
         ∨ (response_type resp = VStr "edit"
            ∧ ∃ d : gmap string value,
                response_args resp = VDict d ∧ d !! "args" = Some input)).
Proof.
  rewrite invoke_wrapped_closure. unfold request.
  set (t := tool_instance tool_to_wrap).
  set (permissions := final_interrupt_config interrupt_config).
  intros Hin.
  destruct (is_response_list (host (sent t permissions tool_input))) eqn:Hshape; cycle 1.
  { destruct (run_ill_shaped t permissions config tool_input Hshape) as [e He].
    rewrite He in Hin. by apply not_invoked_alone in Hin. }
  destruct (host _) as [| | | |[|[| | | | |resp] rest]|] eqn:Hhost; try done.
  { rewrite (run_empty _ _ _ _ Hhost) in Hin. by apply not_invoked_alone in Hin. }
  destruct (eq_str (response_type resp) "accept") eqn:Eaccept.
  { apply eq_str_true in Eaccept.
    rewrite (run_accept _ _ _ _ _ _ Hhost Eaccept) in Hin. cbn [fst] in Hin.
    apply elem_of_cons in Hin as [[=]|Hin].
    apply list_elem_of_singleton in Hin as [= -> ->]. eauto 10. }
  destruct (eq_str (response_type resp) "edit") eqn:Eedit.
  { apply eq_str_true in Eedit.
    destruct (has_nested_args_dec (response_args resp)) as [(d & edited & Hd & Hnested)|Hnone].
    - rewrite (run_edit _ _ _ _ _ _ _ _ Hhost Eedit Hd Hnested) in Hin. cbn [fst] in Hin.
      apply elem_of_cons in Hin as [[=]|Hin].
      apply list_elem_of_singleton in Hin as [= -> ->]. eauto 10.
    - destruct (run_edit_without_args _ _ config _ _ _ Hhost Eedit Hnone) as [He|He];
        rewrite He in Hin; by apply not_invoked_alone in Hin. }
  destruct (eq_str (response_type resp) "response") eqn:Eresponse.
  { apply eq_str_true in Eresponse.
    rewrite (run_response _ _ _ _ _ _ Hhost Eresponse) in Hin.
    by apply not_invoked_alone in Hin. }
  destruct (eq_str (response_type resp) "ignore") eqn:Eignore.
  { apply eq_str_true in Eignore.
    rewrite (run_ignore _ _ _ _ _ _ Hhost Eignore) in Hin.
    by apply not_invoked_alone in Hin. }
  apply eq_str_false_inv in Eaccept, Eedit, Eresponse, Eignore.
  erewrite run_unsupported in Hin; [by apply not_invoked_alone in Hin|exact Hhost|].
  rewrite !not_elem_of_cons. split_and!; [done..|]. apply not_elem_of_nil.
Qed.

(** X9: lines 51-53 and 67-114: the permissions travel in the request and are
    never read back.  Two wrappers of one tool that differ in their
    [interrupt_config] end the same way, with the same events after the
    interrupt, whenever the host gives both the same answer. *)
Theorem permissions_not_enforced
    tool_to_wrap interrupt_config interrupt_config' config tool_input :
  host (request tool_to_wrap interrupt_config tool_input)
    = host (request tool_to_wrap interrupt_config' tool_input) →
  (invoke_wrapped tool_to_wrap interrupt_config config tool_input).2
    = (invoke_wrapped tool_to_wrap interrupt_config' config tool_input).2
  ∧ tail (invoke_wrapped tool_to_wrap interrupt_config config tool_input).1
    = tail (invoke_wrapped tool_to_wrap interrupt_config' config tool_input).1.
Proof.
  intros Hsame. rewrite !invoke_wrapped_closure.
  unfold request, run_closure, sent in *. coro_step. rewrite Hsame.
  by destruct (run host tool _).
Qed.

End HumanInTheLoop.

(** ** The first response alone decides *)

(** Unfolds the wrapped tool and runs it up to the next test. *)
Ltac wrapped_step :=
  cbn [add_human_in_the_loop coroutine call_tool_with_interrupt
       mbind mret coro_mbind coro_ret coro_bind interrupt ainvoke lift run
       truthy negb getitem0 get getitem contains from_option id].

(** X2: line 84 reads [response_list[0]] and nothing else of the list: two
    hosts whose answers start with the same element, whatever follows it, give
    the same events and the same end. *)
Theorem only_first_response_counts {RunnableConfig Schema Impl Callable : Type}
    (create_tool : Callable → BaseTool Schema Impl)
    (decorated_name decorated_description : string → string → Schema → string)
    (decorated_schema : string → string → Schema → Schema)
    (repr_container : value → string)
    (host host' : value → value) (tool : value → RunnableConfig → outcome value)
    (tool_to_wrap : Callable + BaseTool Schema Impl)
    (interrupt_config : option (gmap string bool))
    (config : RunnableConfig) (tool_input : gmap string value)
    (first : value) (rest rest' : list value) :
  host (request create_tool tool_to_wrap interrupt_config tool_input)
    = VList (first :: rest) →
  host' (request create_tool tool_to_wrap interrupt_config tool_input)
    = VList (first :: rest') →
  invoke_wrapped create_tool decorated_name decorated_description decorated_schema
      repr_container host tool
      tool_to_wrap interrupt_config config tool_input
  = invoke_wrapped create_tool decorated_name decorated_description decorated_schema
      repr_container host' tool
      tool_to_wrap interrupt_config config tool_input.
Proof.
  intros Hhost Hhost'. unfold invoke_wrapped, request, sent in *.
  wrapped_step. rewrite Hhost, Hhost'.
  repeat (wrapped_step;
          match goal with
          | |- context [tool ?i ?c] => destruct (tool i c)
          | |- context [get ?v _] => destruct v
          | |- context [truthy ?v] => destruct v
          | |- context [contains _ ?v] => destruct v
          | |- context [getitem ?v _] => destruct v
          | |- context [match ?x with _ => _ end] =>
              lazymatch x with
              | run _ _ _ => fail
              | _ => destruct x
              end
          end);
    wrapped_step; reflexivity.
Qed.

(** ** Runs on the running example

    Answers outside the documented shape fail in the operators the closure
    applies to them, before the branch on the type tag. *)

Example run_accept_example :
  snd (invoke_wrapped coerce_search keep_name keep_description keep_schema no_repr
         (answer [VDict {[ "type" := VStr "accept" ]}]) echo
         (inr search_tool) None () search_input)
  = Returned (VDict search_input).
Proof. vm_compute. reflexivity. Qed.

Example run_answer_none_example :
  snd (invoke_wrapped coerce_search keep_name keep_description keep_schema
         no_repr (λ _, VNone) echo
         (inr search_tool) None () search_input)
  = Raised (ValueError "Interrupt did not return a response.").
Proof. vm_compute. reflexivity. Qed.

Example run_answer_not_a_record_example :
  snd (invoke_wrapped coerce_search keep_name keep_description keep_schema
      no_repr (answer [VStr "accept"]) echo
         (inr search_tool) None () search_input)
  = Raised AttributeError.
Proof. vm_compute. reflexivity. Qed.

Example run_edit_args_string_example :
  snd (invoke_wrapped coerce_search keep_name keep_description keep_schema no_repr
         (answer [VDict {[ "type" := VStr "edit"; "args" := VStr "args" ]}]) echo
         (inr search_tool) None () search_input)
  = Raised TypeError.
Proof. vm_compute. reflexivity. Qed.

Example run_edit_empty_args_example :
  snd (invoke_wrapped coerce_search keep_name keep_description keep_schema no_repr
         (answer [VDict {[ "type" := VStr "edit"; "args" := VDict ∅ ]}]) echo
         (inr search_tool) None () search_input)
  = Raised (ValueError
      "Edit response type received, but valid 'args' were not found in the response.").
Proof. vm_compute. reflexivity. Qed.

Example run_missing_type_example :
  snd (invoke_wrapped coerce_search keep_name keep_description keep_schema
      no_repr (answer [VDict ∅]) echo
         (inr search_tool) None () search_input)
  = Raised (ValueError "Unsupported interrupt response type received: 'None'").
Proof. vm_compute. reflexivity. Qed.

Example run_tool_raises_example :
  invoke_wrapped coerce_search keep_name keep_description keep_schema no_repr
    (answer [VDict {[ "type" := VStr "accept" ]}]) (λ _ _, Raised KeyError)
    (inr search_tool) None () search_input
  = ([Interrupted (request coerce_search (inr search_tool) None search_input);
      Invoked (VDict search_input) ()],
     Raised KeyError).
Proof. vm_compute. reflexivity. Qed.

(** ** The theorems on the running example *)

Lemma accept_invokes_original_tool_witness :
  invoke_wrapped coerce_search keep_name keep_description keep_schema no_repr
    (answer [VDict {[ "type" := VStr "accept" ]}]) echo
    (inr search_tool) None () search_input
  = ([Interrupted (request coerce_search (inr search_tool) None search_input);
      Invoked (VDict search_input) ()],
     Returned (VDict search_input)).
Proof.
  apply (accept_invokes_original_tool coerce_search keep_name keep_description keep_schema no_repr
           (answer [VDict {[ "type" := VStr "accept" ]}]) echo
           (inr search_tool) None () search_input {[ "type" := VStr "accept" ]} []).
  - reflexivity.
  - vm_compute. reflexivity.
Defined.

Lemma edit_invokes_with_replacement_witness :
  invoke_wrapped coerce_search keep_name keep_description keep_schema no_repr
    (answer [VDict {[ "type" := VStr "edit";
                      "args" := VDict {[ "args" := VDict {[ "query" := VStr "coq" ]} ]} ]}])
    echo (inr search_tool) None () search_input
  = ([Interrupted (request coerce_search (inr search_tool) None search_input);
      Invoked (VDict {[ "query" := VStr "coq" ]}) ()],
     Returned (VDict {[ "query" := VStr "coq" ]})).
Proof.
  apply (edit_invokes_with_replacement coerce_search keep_name keep_description keep_schema
      no_repr _ echo
           (inr search_tool) None () search_input
           {[ "type" := VStr "edit";
              "args" := VDict {[ "args" := VDict {[ "query" := VStr "coq" ]} ]} ]} []
           {[ "args" := VDict {[ "query" := VStr "coq" ]} ]}
           (VDict {[ "query" := VStr "coq" ]})).
  - reflexivity.
  - vm_compute. reflexivity.
  - vm_compute. reflexivity.
  - vm_compute. reflexivity.
Defined.

Lemma response_returns_payload_witness :
  invoke_wrapped coerce_search keep_name keep_description keep_schema no_repr
    (answer [VDict {[ "type" := VStr "response"; "args" := VStr "42" ]}]) echo
    (inl ()) (Some ∅) () search_input
  = ([Interrupted (request coerce_search (inl ()) (Some ∅) search_input)],
     Returned (VStr "42")).
Proof.
  apply (response_returns_payload coerce_search keep_name keep_description keep_schema
      no_repr _ echo
           (inl ()) (Some ∅) () search_input
           {[ "type" := VStr "response"; "args" := VStr "42" ]} [] (VStr "42")).
  - reflexivity.
  - vm_compute. reflexivity.
  - vm_compute. reflexivity.
Defined.

Lemma ignore_returns_fixed_notice_witness :
  invoke_wrapped coerce_search keep_name keep_description keep_schema no_repr
    (answer [VDict {[ "type" := VStr "ignore" ]}]) echo
    (inr search_tool) None () search_input
  = ([Interrupted (request coerce_search (inr search_tool) None search_input)],
     Returned (VStr "Tool call 'search' was ignored by the user.")).
Proof.
  apply (ignore_returns_fixed_notice coerce_search keep_name keep_description keep_schema
      no_repr _ echo
           (inr search_tool) None () search_input {[ "type" := VStr "ignore" ]} []).
  - reflexivity.
  - vm_compute. reflexivity.
Defined.

Lemma fatal_errors_exactly_three_witness :
  (∃ e, invoke_wrapped coerce_search keep_name keep_description keep_schema
          no_repr (answer []) echo
          (inr search_tool) None () search_input =
          ([Interrupted (request coerce_search (inr search_tool) None search_input)],
           Raised e))
  ∧ ¬ (∃ e, invoke_wrapped coerce_search keep_name keep_description keep_schema no_repr
              (answer [VDict {[ "type" := VStr "accept" ]}]) echo
              (inr search_tool) None () search_input =
              ([Interrupted (request coerce_search (inr search_tool) None search_input)],
               Raised e)).
Proof.
  split.
  - apply (fatal_errors_exactly_three coerce_search keep_name keep_description keep_schema
      no_repr (answer []) echo
             (inr search_tool) None () search_input); [reflexivity|].
    left. reflexivity.
  - intros Hraised.
    apply (fatal_errors_exactly_three coerce_search keep_name keep_description keep_schema no_repr
             (answer [VDict {[ "type" := VStr "accept" ]}]) echo
             (inr search_tool) None () search_input) in Hraised; [|reflexivity].
    destruct Hraised as [Hempty|[(resp & rest & Hhost & Htype & _)|(resp & rest & Hhost & Htype)]].
    + discriminate Hempty.
    + injection Hhost as <- _. vm_compute in Htype. discriminate Htype.
    + injection Hhost as <- _. apply Htype. vm_compute. apply list_elem_of_here.
Defined.

Lemma unsupported_type_named_in_error_witness :
  ∃ msg,
    invoke_wrapped coerce_search keep_name keep_description keep_schema no_repr
      (answer [VDict {[ "type" := VStr "approve" ]}]) echo
      (inr search_tool) None () search_input
    = ([Interrupted (request coerce_search (inr search_tool) None search_input)],
       Raised (ValueError msg))
    ∧ str_contains "approve" msg = true.
Proof.
  destruct (unsupported_type_named_in_error coerce_search keep_name keep_description keep_schema
      no_repr
              (answer [VDict {[ "type" := VStr "approve" ]}]) echo
              (inr search_tool) None () search_input
              {[ "type" := VStr "approve" ]} [])
    as (msg & Hrun & _ & _ & Htag).
  - reflexivity.
  - assert (response_type {[ "type" := VStr "approve" ]} = VStr "approve") as ->
      by (vm_compute; reflexivity).
    rewrite !not_elem_of_cons. repeat split; try discriminate. apply not_elem_of_nil.
  - exists msg. split; [exact Hrun|]. apply Htag. vm_compute. reflexivity.
Defined.

Lemma response_without_args_returns_none_witness :
  invoke_wrapped coerce_search keep_name keep_description keep_schema no_repr
    (answer [VDict {[ "type" := VStr "response" ]}]) echo
    (inr search_tool) None () search_input
  = ([Interrupted (request coerce_search (inr search_tool) None search_input)],
     Returned VNone).
Proof.
  apply (response_without_args_returns_none coerce_search keep_name keep_description keep_schema
      no_repr _ echo
           (inr search_tool) None () search_input {[ "type" := VStr "response" ]} []).
  - reflexivity.
  - vm_compute. reflexivity.
  - vm_compute. reflexivity.
Defined.

(** ** The further properties on the running example *)

Lemma falsy_answer_is_no_response_witness :
  invoke_wrapped coerce_search keep_name keep_description keep_schema no_repr (λ _, VDict ∅) echo
    (inr search_tool) None () search_input
  = ([Interrupted (request coerce_search (inr search_tool) None search_input)],
     Raised (ValueError "Interrupt did not return a response.")).
Proof.
  apply (falsy_answer_is_no_response coerce_search keep_name keep_description keep_schema
      no_repr (λ _, VDict ∅) echo
           (inr search_tool) None () search_input).
  vm_compute. reflexivity.
Defined.

Lemma only_first_response_counts_witness :
  invoke_wrapped coerce_search keep_name keep_description keep_schema no_repr
    (answer [VDict {[ "type" := VStr "ignore" ]}]) echo
    (inr search_tool) None () search_input
  = invoke_wrapped coerce_search keep_name keep_description keep_schema no_repr
      (answer [VDict {[ "type" := VStr "ignore" ]}; VInt 7; VStr "accept"]) echo
      (inr search_tool) None () search_input.
Proof.
  apply (only_first_response_counts coerce_search keep_name keep_description keep_schema no_repr
           (answer [VDict {[ "type" := VStr "ignore" ]}])
           (answer [VDict {[ "type" := VStr "ignore" ]}; VInt 7; VStr "accept"]) echo
           (inr search_tool) None () search_input
           (VDict {[ "type" := VStr "ignore" ]}) [] [VInt 7; VStr "accept"]).
  - reflexivity.
  - reflexivity.
Defined.

Lemma first_response_not_a_record_witness :
  invoke_wrapped coerce_search keep_name keep_description keep_schema
      no_repr (answer [VStr "accept"]) echo
    (inr search_tool) None () search_input
  = ([Interrupted (request coerce_search (inr search_tool) None search_input)],
     Raised AttributeError).
Proof.
  apply (first_response_not_a_record coerce_search keep_name keep_description keep_schema
      no_repr (answer [VStr "accept"]) echo
           (inr search_tool) None () search_input (VStr "accept") []).
  - reflexivity.
  - intros resp. discriminate.
Defined.

Lemma answer_not_a_list_witness :
  invoke_wrapped coerce_search keep_name keep_description keep_schema
      no_repr (λ _, VDict {[ "type" := VStr "accept" ]}) echo
    (inr search_tool) None () search_input
  = ([Interrupted (request coerce_search (inr search_tool) None search_input)],
     Raised KeyError).
Proof.
  apply (answer_not_a_list coerce_search keep_name keep_description keep_schema no_repr
           (λ _, VDict {[ "type" := VStr "accept" ]}) echo
           (inr search_tool) None () search_input).
  - vm_compute. reflexivity.
  - intros l. discriminate.
Defined.

Lemma edit_without_args_value_error_witness :
  invoke_wrapped coerce_search keep_name keep_description keep_schema no_repr
    (answer [VDict {[ "type" := VStr "edit";
                      "args" := VDict {[ "query" := VStr "coq" ]} ]}]) echo
    (inr search_tool) None () search_input
  = ([Interrupted (request coerce_search (inr search_tool) None search_input)],
     Raised (ValueError
       "Edit response type received, but valid 'args' were not found in the response.")).
Proof.
  apply (edit_without_args_value_error coerce_search keep_name keep_description keep_schema
      no_repr _ echo
           (inr search_tool) None () search_input
           {[ "type" := VStr "edit"; "args" := VDict {[ "query" := VStr "coq" ]} ]} []).
  - reflexivity.
  - vm_compute. reflexivity.
  - right. exists {[ "query" := VStr "coq" ]}. split; vm_compute; reflexivity.
Defined.

Lemma edit_payload_not_a_dict_type_error_witness :
  invoke_wrapped coerce_search keep_name keep_description keep_schema no_repr
    (answer [VDict {[ "type" := VStr "edit"; "args" := VStr "new args" ]}]) echo
    (inr search_tool) None () search_input
  = ([Interrupted (request coerce_search (inr search_tool) None search_input)],
     Raised TypeError).
Proof.
  apply (edit_payload_not_a_dict_type_error coerce_search keep_name keep_description keep_schema
      no_repr _ echo
           (inr search_tool) None () search_input
           {[ "type" := VStr "edit"; "args" := VStr "new args" ]} []).
  - reflexivity.
  - vm_compute. reflexivity.
  - left. exists "new args". split; vm_compute; reflexivity.
Defined.

Lemma missing_type_reported_as_none_witness :
  invoke_wrapped coerce_search keep_name keep_description keep_schema no_repr
    (answer [VDict {[ "args" := VStr "42" ]}]) echo
    (inr search_tool) None () search_input
  = ([Interrupted (request coerce_search (inr search_tool) None search_input)],
     Raised (ValueError "Unsupported interrupt response type received: 'None'")).
Proof.
  apply (missing_type_reported_as_none coerce_search keep_name keep_description keep_schema
      no_repr _ echo
           (inr search_tool) None () search_input {[ "args" := VStr "42" ]} []).
  - reflexivity.
  - vm_compute. reflexivity.
Defined.

Lemma tool_invoked_only_on_accept_or_edit_witness :
  () = ()
  ∧ ∃ resp rest,
      answer [VDict {[ "type" := VStr "accept" ]}]
        (request coerce_search (inr search_tool) None search_input)
      = VList (VDict resp :: rest)
      ∧ ((response_type resp = VStr "accept" ∧ VDict search_input = VDict search_input)
         ∨ (response_type resp = VStr "edit"
            ∧ ∃ d : gmap string value,
                response_args resp = VDict d ∧ d !! "args" = Some (VDict search_input))).
Proof.
  apply (tool_invoked_only_on_accept_or_edit coerce_search keep_name keep_description keep_schema
      no_repr
           (answer [VDict {[ "type" := VStr "accept" ]}]) echo
           (inr search_tool) None () search_input (VDict search_input) ()).
  vm_compute. apply list_elem_of_further, list_elem_of_here.
Defined.

Lemma permissions_not_enforced_witness :
  (invoke_wrapped coerce_search keep_name keep_description keep_schema no_repr
     (answer [VDict {[ "type" := VStr "accept" ]}]) echo
     (inr search_tool) None () search_input).2
  = (invoke_wrapped coerce_search keep_name keep_description keep_schema no_repr
       (answer [VDict {[ "type" := VStr "accept" ]}]) echo
       (inr search_tool) (Some {[ "allow_accept" := false ]}) () search_input).2
  ∧ tail (invoke_wrapped coerce_search keep_name keep_description keep_schema no_repr
            (answer [VDict {[ "type" := VStr "accept" ]}]) echo
            (inr search_tool) None () search_input).1
    = tail (invoke_wrapped coerce_search keep_name keep_description keep_schema no_repr
              (answer [VDict {[ "type" := VStr "accept" ]}]) echo
              (inr search_tool) (Some {[ "allow_accept" := false ]}) () search_input).1.
Proof.
  apply (permissions_not_enforced coerce_search keep_name keep_description keep_schema no_repr
           (answer [VDict {[ "type" := VStr "accept" ]}]) echo
           (inr search_tool) None (Some {[ "allow_accept" := false ]}) () search_input).
  reflexivity.
Defined.

(** ** Where the statements stop *)

(** C5, as stated: an answer whose first element is the string ["accept"],
    not a record, raises with the interrupt as the only event of the run, and
    is none of the three cases. *)
Lemma fatal_errors_exactly_three_counterexample :
  (∃ e,
     invoke_wrapped coerce_search keep_name keep_description keep_schema no_repr
       (answer [VStr "accept"]) echo (inr search_tool) None () search_input
     = ([Interrupted (request coerce_search (inr search_tool) None search_input)],
        Raised e))
  ∧ ¬ (answer [VStr "accept"] (request coerce_search (inr search_tool) None search_input)
         = VList []
       ∨ (∃ resp rest,
            answer [VStr "accept"]
              (request coerce_search (inr search_tool) None search_input)
              = VList (VDict resp :: rest)
            ∧ response_type resp = VStr "edit"
            ∧ ¬ has_nested_args (response_args resp))
       ∨ (∃ resp rest,
            answer [VStr "accept"]
              (request coerce_search (inr search_tool) None search_input)
              = VList (VDict resp :: rest)
            ∧ response_type resp
                ∉ [VStr "accept"; VStr "edit"; VStr "response"; VStr "ignore"])).
Proof.
  split.
  - exists AttributeError. vm_compute. reflexivity.
  - unfold answer.
    intros [Hempty|[(resp & rest & Hrecord & _)|(resp & rest & Hrecord & _)]];
      discriminate.
Qed.

